(** * Slow Learner Prediction Tool: the helper functions of [app.py]

    A shallow embedding of [load_artifacts], [predict_slow_learner],
    [get_remedial_suggestions] and the results area of the page, with the
    properties of the advisory list, of the probability headline, of the
    prediction pipeline, of the artifact loader and of the rendered page.

    Python floats are IEEE binary64 values: they are modelled by the
    kernel's primitive floats, and read through [Prim2SF] where the exact
    value is needed (the [%] presentation type of [format]). Python
    integers are [Z]. *)

From Stdlib Require Import ZArith Lia List Bool Ascii String.
From Stdlib Require Import Numbers.DecimalString.
From Stdlib Require Import Floats.
Import ListNotations.

Open Scope string_scope.
Open Scope Z_scope.

(** ** Text helpers *)

(** The line feed of the Python literals ["\n**Observations ...**"] and
    ["\n---"]. *)
Definition nl : string := String (ascii_of_nat 10) EmptyString.

Definition is_digit (c : ascii) : bool :=
  (Nat.leb 48 (nat_of_ascii c) && Nat.leb (nat_of_ascii c) 57)%bool.

Definition is_point (c : ascii) : bool := Ascii.eqb c "."%char.

(** Number of digits at the head of a string. *)
Fixpoint leading_digits (s : string) : nat :=
  match s with
  | EmptyString => O
  | String c s' => if is_digit c then S (leading_digits s') else O
  end.

(** Number of digits right after the first decimal point of a text, when it
    has one: the decimal places of the first number printed in it. *)
Fixpoint decimal_places (s : string) : option nat :=
  match s with
  | EmptyString => None
  | String c s' =>
      if is_point c then Some (leading_digits s') else decimal_places s'
  end.

(** ** [format(x, ".N%")]

    CPython multiplies the float by 100 in binary64, prints the product in
    fixed point with N digits after the point, correctly rounded from the
    exact binary value (ties to even), and appends the percent sign. *)
Module Fmt.

Definition pow10 (n : nat) : Z := 10 ^ Z.of_nat n.

Definition digit_char (d : Z) : ascii := ascii_of_nat (48 + Z.to_nat d).

Definition int_digits (n : Z) : string :=
  NilEmpty.string_of_uint (N.to_uint (Z.to_N n)).

(** [k] digits of [r], most significant first, zero padded. *)
Fixpoint frac_digits (k : nat) (r : Z) : string :=
  match k with
  | O => EmptyString
  | S k' => String (digit_char ((r / pow10 k') mod 10)) (frac_digits k' r)
  end.

(** Nearest integer to [num / den], ties to the even one ([0 < den]). *)
Definition round_half_even (num den : Z) : Z :=
  let q := num / den in
  let r := num mod den in
  match 2 * r ?= den with
  | Lt => q
  | Gt => q + 1
  | Eq => if Z.even q then q else q + 1
  end.

(** [m * 2^e * 10^prec] rounded to an integer. *)
Definition scaled (prec : nat) (m : positive) (e : Z) : Z :=
  if 0 <=? e then Zpos m * 2 ^ e * pow10 prec
  else round_half_even (Zpos m * pow10 prec) (2 ^ (- e)).

Definition fixed_point (prec : nat) (n : Z) : string :=
  int_digits (n / pow10 prec) ++
  match prec with
  | O => EmptyString
  | S _ => "." ++ frac_digits prec (n mod pow10 prec)
  end.

Definition sign_text (s : bool) : string := if s then "-" else "".

Definition format_fixed (prec : nat) (v : spec_float) : string :=
  match v with
  | S754_nan => "nan"
  | S754_infinity s => sign_text s ++ "inf"
  | S754_zero s => sign_text s ++ fixed_point prec 0
  | S754_finite s m e => sign_text s ++ fixed_point prec (scaled prec m e)
  end.

Definition format_percent (prec : nat) (x : float) : string :=
  format_fixed prec (Prim2SF (x * 100)%float) ++ "%".

End Fmt.

(** ** The advisory rules *)

(** [suggestions.append(s)] on the list threaded through the function. *)
Definition append (suggestions : list string) (s : string) : list string :=
  suggestions ++ [s].

Definition headline (precision : nat) (probability : float) : string :=
  "**Student identified as potentially needing support (Probability: "
  ++ Fmt.format_percent precision probability ++ ")**".

Definition get_remedial_suggestions
    (prediction : Z) (probability : float)
    (standardized_test_score average_grade attendance_percentage : float)
    (participation_rating : Z) : list string :=
  let suggestions := [] in
  if prediction =? 1 then
    let suggestions := append suggestions (headline 2 probability) in
    let suggestions := append suggestions "---" in
    let suggestions := append suggestions "**Recommended Actions:**" in
    let suggestions := append suggestions
      "* Schedule a one-on-one meeting to discuss challenges and learning style." in
    let suggestions := append suggestions
      "* Provide simplified explanations and break down complex topics." in
    let suggestions := append suggestions
      "* Offer extra practice exercises tailored to weak areas." in
    let suggestions := append suggestions
      "* Utilize visual aids and hands-on activities." in
    let suggestions := append suggestions
      "* Encourage questions in a supportive environment." in
    let suggestions := append suggestions
      "* Recommend peer tutoring or study groups." in
    let suggestions := append suggestions
      (nl ++ "**Observations & Targeted Suggestions:**") in
    let triggered_specific := false in
    let '(suggestions, triggered_specific) :=
      if (standardized_test_score <? 45)%float then
        let suggestions := append suggestions
          "* *Observation:* Low Standardized Test Score." in
        let suggestions := append suggestions
          "    * *Suggestion:* Focus on foundational concepts for test topics." in
        (suggestions, true)
      else (suggestions, triggered_specific) in
    let '(suggestions, triggered_specific) :=
      if (average_grade <? 70)%float then
        let suggestions := append suggestions
          "* *Observation:* Low Average Grade." in
        let suggestions := append suggestions
          "    * *Suggestion:* Review recent assignments for weaknesses." in
        let suggestions := append suggestions
          "    * *Suggestion:* Offer re-assessment or extra credit opportunities." in
        (suggestions, true)
      else (suggestions, triggered_specific) in
    let '(suggestions, triggered_specific) :=
      if (attendance_percentage <? 85)%float then
        let suggestions := append suggestions
          "* *Observation:* Low Attendance." in
        let suggestions := append suggestions
          "    * *Suggestion:* Discuss barriers to attendance." in
        (suggestions, true)
      else (suggestions, triggered_specific) in
    let '(suggestions, triggered_specific) :=
      if participation_rating <=? 2 then
        let suggestions := append suggestions
          "* *Observation:* Low Class Participation." in
        let suggestions := append suggestions
          "    * *Suggestion:* Create low-pressure participation opportunities." in
        let suggestions := append suggestions
          "    * *Suggestion:* Reinforce participation attempts positively." in
        (suggestions, true)
      else (suggestions, triggered_specific) in
    let suggestions :=
      if negb triggered_specific then
        append suggestions
          "* No specific low metrics triggered; focus on general strategies."
      else suggestions in
    let suggestions := append suggestions (nl ++ "---") in
    let suggestions := append suggestions
      "**Follow Up:** Monitor progress and adjust strategies as needed." in
    suggestions
  else suggestions.

(** *** The parts of an advisory list

    Names for the text blocks that [get_remedial_suggestions] appends, used
    to state what the list looks like. *)

Definition preamble (probability : float) : list string :=
  [ headline 2 probability;
    "---";
    "**Recommended Actions:**";
    "* Schedule a one-on-one meeting to discuss challenges and learning style.";
    "* Provide simplified explanations and break down complex topics.";
    "* Offer extra practice exercises tailored to weak areas.";
    "* Utilize visual aids and hands-on activities.";
    "* Encourage questions in a supportive environment.";
    "* Recommend peer tutoring or study groups.";
    nl ++ "**Observations & Targeted Suggestions:**" ].

Definition score_observation : string :=
  "* *Observation:* Low Standardized Test Score.".

Definition score_block : list string :=
  [ score_observation;
    "    * *Suggestion:* Focus on foundational concepts for test topics." ].

Definition grade_block : list string :=
  [ "* *Observation:* Low Average Grade.";
    "    * *Suggestion:* Review recent assignments for weaknesses.";
    "    * *Suggestion:* Offer re-assessment or extra credit opportunities." ].

Definition attendance_block : list string :=
  [ "* *Observation:* Low Attendance.";
    "    * *Suggestion:* Discuss barriers to attendance." ].

Definition participation_block : list string :=
  [ "* *Observation:* Low Class Participation.";
    "    * *Suggestion:* Create low-pressure participation opportunities.";
    "    * *Suggestion:* Reinforce participation attempts positively." ].

Definition fallback_line : string :=
  "* No specific low metrics triggered; focus on general strategies.".

Definition follow_up : list string :=
  [ nl ++ "---";
    "**Follow Up:** Monitor progress and adjust strategies as needed." ].

(** A block that is present when its condition holds. *)
Definition block (cond : bool) (lines : list string) : list string :=
  if cond then lines else [].

(** The three observation blocks that do not depend on the test score. *)
Definition other_blocks (grade attendance : float) (participation : Z)
  : list string :=
  (block (grade <? 70)%float grade_block ++
   block (attendance <? 85)%float attendance_block ++
   block (participation <=? 2) participation_block)%list.

Definition other_triggered (grade attendance : float) (participation : Z)
  : bool :=
  ((grade <? 70)%float || (attendance <? 85)%float || (participation <=? 2))%bool.

Definition none_triggered (score grade attendance : float) (participation : Z)
  : bool :=
  negb ((score <? 45)%float || other_triggered grade attendance participation).

(** How often a line occurs in a list. *)
Definition occurrences (x : string) (l : list string) : nat :=
  List.length (filter (String.eqb x) l).

(** [after] is [before] with the lines [blk] put in at one place, and
    nothing else changed. *)
Definition inserted_once (blk before after : list string) : Prop :=
  exists pre post : list string,
    before = (pre ++ post)%list /\ after = (pre ++ blk ++ post)%list.

(** The double nearest to 0.734. *)
Definition p_0734 : float := 0x1.77ced916872bp-1%float.

(** ** Python exceptions and results *)

Inductive exn : Type :=
| FileNotFoundError (msg : string)
| IndexError (msg : string)
| OtherException (msg : string).

(** [str(e)] *)
Definition str (e : exn) : string :=
  match e with
  | FileNotFoundError msg | IndexError msg | OtherException msg => msg
  end.

Inductive result (A : Type) : Type :=
| Ok (a : A)
| Raise (e : exn).
Arguments Ok {A} a.
Arguments Raise {A} e.

Definition bind {A B : Type} (c : result A) (k : A -> result B) : result B :=
  match c with
  | Ok a => k a
  | Raise e => Raise e
  end.

Notation "x <- c ;; k" := (bind c (fun x => k))
  (at level 61, c at next level, right associativity).

(** A natural number in decimal, as [str] prints it. *)
Definition decimal (n : nat) : string :=
  NilEmpty.string_of_uint (Nat.to_uint n).

(** The [IndexError] of numpy for index [i] into an axis of [size]
    entries. *)
Definition out_of_bounds (i size : nat) : exn :=
  IndexError ("index " ++ decimal i ++ " is out of bounds for axis 0 with size "
              ++ decimal size).

(** [xs[i]] on an array, as scikit-learn's methods return them: a missing
    position raises numpy's [IndexError]. *)
Definition index {A : Type} (xs : list A) (i : nat) : result A :=
  match nth_error xs i with
  | Some x => Ok x
  | None => Raise (out_of_bounds i (List.length xs))
  end.

(** ** Loading the artifacts *)

Definition SCALER_FILENAME : string := "scaler.joblib".
Definition MODEL_FILENAME : string := "random_forest_model.joblib".

(** The text handed to [st.error] when a file is not found. *)
Definition missing_artifact_message : string :=
  "Error: Could not find '" ++ SCALER_FILENAME ++ "' or '" ++ MODEL_FILENAME
  ++ "'. Ensure they are in the app directory.".

(** The text handed to [st.error] for any other exception. *)
Definition corrupt_artifact_message (e : exn) : string :=
  "Error loading artifacts: " ++ str e.

Section Loader.

(** The objects [joblib.load] deserializes, and [joblib.load] itself on the
    files present when the app starts: it raises, or returns the value
    stored in the file, which is an object or [None]. *)
Variable Artifact : Type.
Variable joblib_load : string -> result (option Artifact).

(** The returned pair and the messages passed to [st.error]. The
    [st.cache_resource] decorator only memoizes this body. *)
Definition load_artifacts (scaler_path model_path : string)
  : (option Artifact * option Artifact) * list string :=
  let try :=
    scaler <- joblib_load scaler_path ;;
    model <- joblib_load model_path ;;
    Ok (scaler, model) in
  match try with
  | Ok (scaler, model) => ((scaler, model), [])
  | Raise (FileNotFoundError _) => ((None, None), [missing_artifact_message])
  | Raise e => ((None, None), [corrupt_artifact_message e])
  end.

(** The file at a path is absent: loading it raises [FileNotFoundError]. *)
Definition absent (path : string) : Prop :=
  exists msg, joblib_load path = Raise (FileNotFoundError msg).

(** The file is there and does not deserialize: loading it raises
    something else. *)
Definition undeserializable (path : string) (cause : exn) : Prop :=
  joblib_load path = Raise cause /\
  forall msg, cause <> FileNotFoundError msg.

(** The exception that ends the [try] block: the scaler's, or the model's
    once the scaler is loaded. *)
Inductive first_raised (scaler_path model_path : string) (e : exn) : Prop :=
| scaler_raised :
    joblib_load scaler_path = Raise e ->
    first_raised scaler_path model_path e
| model_raised (scaler : option Artifact) :
    joblib_load scaler_path = Ok scaler ->
    joblib_load model_path = Raise e ->
    first_raised scaler_path model_path e.

End Loader.

(** ** Prediction *)

Definition FEATURE_NAMES : list string :=
  [ "Standardized_Test_Score"; "Average_Grade"; "Attendance_Percentage";
    "Times_Late"; "Participation_Rating" ].

(** A cell of a data frame: a Python int or float. *)
Inductive number : Type :=
| Int (z : Z)
| Float (f : float).

(** The [input_features] dictionary of the form. *)
Record Features : Type := {
  Standardized_Test_Score : float;
  Average_Grade : float;
  Attendance_Percentage : float;
  Times_Late : Z;
  Participation_Rating : Z
}.

(** [data[name]] as a frame cell; a column the dictionary lacks is NaN. *)
Definition column (data : Features) (name : string) : number :=
  if (name =? "Standardized_Test_Score")%string then
    Float (Standardized_Test_Score data)
  else if (name =? "Average_Grade")%string then Float (Average_Grade data)
  else if (name =? "Attendance_Percentage")%string then
    Float (Attendance_Percentage data)
  else if (name =? "Times_Late")%string then Int (Times_Late data)
  else if (name =? "Participation_Rating")%string then
    Int (Participation_Rating data)
  else Float nan.

(** [pd.DataFrame(rows, columns=columns)] *)
Definition DataFrame (rows : list Features) (columns : list string)
  : list (list number) :=
  map (fun data => map (column data) columns) rows.

(** The fitted objects, known only by their methods. *)
Record Scaler : Type := {
  transform : list (list number) -> result (list (list float))
}.

Record Classifier : Type := {
  predict : list (list float) -> result (list Z);
  predict_proba : list (list float) -> result (list (list float))
}.

(** [None, None] or [prediction, probability]; the [warnings] filter
    around the three calls changes no value. *)
Definition predict_slow_learner (data : Features)
    (scaler_obj : option Scaler) (model_obj : option Classifier)
  : result (option Z * option float) :=
  match scaler_obj, model_obj with
  | Some scaler_obj, Some model_obj =>
      let input_data := DataFrame [data] FEATURE_NAMES in
      input_data_scaled <- transform scaler_obj input_data ;;
      labels <- predict model_obj input_data_scaled ;;
      prediction <- index labels 0 ;;
      probabilities <- predict_proba model_obj input_data_scaled ;;
      first_row <- index probabilities 0 ;;
      probability <- index first_row 1 ;;
      Ok (Some prediction, Some probability)
  | _, _ => Ok (None, None)
  end.

(** The ranges the form declares for the five inputs. *)
Definition in_declared_range (data : Features) : bool :=
  ((0 <=? Standardized_Test_Score data)%float
   && (Standardized_Test_Score data <=? 100)%float
   && (0 <=? Average_Grade data)%float
   && (Average_Grade data <=? 100)%float
   && (0 <=? Attendance_Percentage data)%float
   && (Attendance_Percentage data <=? 100)%float
   && (0 <=? Times_Late data)
   && (1 <=? Participation_Rating data)
   && (Participation_Rating data <=? 5))%bool.

(** The call ended in an exception instead of a prediction. *)
Definition rejected {A : Type} (r : result A) : Prop :=
  exists e, r = Raise e.

(** *** Test doubles *)
Module Double.

(** Python's [float(z)]: the nearest double. *)
Definition float_of_Z (z : Z) : float :=
  SF2Prim (binary_normalize prec emax z 0 false).

Definition to_float (x : number) : float :=
  match x with
  | Int z => float_of_Z z
  | Float f => f
  end.

(** A scaler that leaves every value as it is. *)
Definition identity_scaler : Scaler :=
  {| transform := fun frame => Ok (map (map to_float) frame) |}.

(** A classifier that flags a row whose first feature is below 45 or above
    100. *)
Definition threshold_classifier : Classifier :=
  {| predict := fun rows =>
       Ok (map (fun row =>
                  match row with
                  | x :: _ => if ((x <? 45) || (100 <? x))%float then 1 else 0
                  | [] => 0
                  end) rows);
     predict_proba := fun rows =>
       Ok (map (fun row =>
                  match row with
                  | x :: _ =>
                      if ((x <? 45) || (100 <? x))%float
                      then [0.25; 0.75]%float else [0.75; 0.25]%float
                  | [] => [0.5; 0.5]%float
                  end) rows) |}.

Definition out_of_range_student : Features :=
  {| Standardized_Test_Score := 150;
     Average_Grade := 75;
     Attendance_Percentage := 90;
     Times_Late := 2;
     Participation_Rating := 3 |}.

(** A start-up where the scaler file does not deserialize and the model
    file is not there. *)
Definition corrupt_scaler_no_model (path : string) : result (option unit) :=
  if (path =? SCALER_FILENAME)%string
  then Raise (OtherException "invalid load key")
  else Raise (FileNotFoundError "No such file or directory").

(** A start-up with both files in place. *)
Definition both_present (path : string) : result (option unit) :=
  Ok (Some tt).

(** A start-up where the scaler file was dumped from [None] and the model
    file holds an object. *)
Definition none_in_scaler_file (path : string) : result (option unit) :=
  if (path =? SCALER_FILENAME)%string then Ok None else Ok (Some tt).

End Double.

(** ** The results area of the page

    The part of the script that runs after the form: it reads the two
    loaded artifacts and the form values, and renders Streamlit elements in
    order. An exception nobody catches ends the script run, and what was
    rendered before it stays on the page. *)

Inductive element : Type :=
| header (body : string)
| warning (body : string)
| success (body : string)
| error (body : string)
| info (body : string)
| metric (label value : string)
  (** an expander and the texts rendered with [st.markdown] inside it *)
| expander (label : string) (expanded : bool) (body : list string)
| markdown (body : string)
| caption (body : string).

(** [x is None] *)
Definition is_None {A : Type} (x : option A) : bool :=
  match x with
  | None => true
  | Some _ => false
  end.

Definition footer : list element :=
  [ markdown "---";
    caption "**Disclaimer:** This tool provides suggestions based on a predictive model. Always use professional judgment and consider individual student circumstances." ].

(** The elements rendered from [st.header("Prediction Results")] to the
    footer, and the exception that ended the run, if any. *)
Definition prediction_results
    (scaler : option Scaler) (final_model : option Classifier)
    (predict_button : bool)
    (score grade attendance : float) (late participation : Z)
  : list element * option exn :=
  let page := [header "Prediction Results"] in
  if (is_None scaler || is_None final_model)%bool then
    let page := (page ++ [warning
      "Model artifacts not loaded. Please check file paths and logs."])%list in
    ((page ++ footer)%list, None)
  else if predict_button then
    let input_features :=
      {| Standardized_Test_Score := score;
         Average_Grade := grade;
         Attendance_Percentage := attendance;
         Times_Late := late;
         Participation_Rating := participation |} in
    match predict_slow_learner input_features scaler final_model with
    | Raise e => (page, Some e)
    | Ok (Some prediction, probability) =>
        let page :=
          if prediction =? 1 then
            (page ++ [warning "🚨 **Potential Need for Support Identified**"])%list
          else
            (page ++
             [success "✅ **No Specific Support Need Identified by Model**"])%list in
        match probability with
        | None =>
            (page,
             Some (OtherException
                     "unsupported format string passed to NoneType.__format__"))
        | Some probability =>
            let page := (page ++
              [metric "Model Confidence (Probability of Needing Support)"
                      (Fmt.format_percent 1 probability)])%list in
            let suggestions :=
              get_remedial_suggestions prediction probability
                score grade attendance participation in
            let page :=
              match suggestions with
              | [] => page
              | _ :: _ =>
                  (page ++
                   [expander "💡 Recommended Remedial Suggestions" true
                      suggestions])%list
              end in
            ((page ++ footer)%list, None)
        end
    | Ok (None, _) =>
        let page := (page ++ [error
          "Prediction could not be made. Check artifact loading."])%list in
        ((page ++ footer)%list, None)
    end
  else
    let page := (page ++ [info
      "Enter student details in the sidebar and click 'Predict Support Need' to view results."])%list in
    ((page ++ footer)%list, None).

(** A classifier fitted on one class only: its probability rows have a
    single column. *)
Definition one_class_classifier : Classifier :=
  {| predict := fun rows => Ok (map (fun _ => 0) rows);
     predict_proba := fun rows => Ok (map (fun _ => [1%float]) rows) |}.

(** * Properties *)

(** ** Shape of the advisory list *)

Lemma suggestions_shape (p s g a : float) (r : Z) :
  get_remedial_suggestions 1 p s g a r =
  (preamble p ++ block (s <? 45)%float score_block ++ other_blocks g a r ++
   block (none_triggered s g a r) [fallback_line] ++ follow_up)%list.
Proof.
  unfold get_remedial_suggestions, other_blocks, none_triggered,
    other_triggered, block, append.
  change (1 =? 1) with true; cbv iota.
  destruct (s <? 45)%float, (g <? 70)%float, (a <? 85)%float, (r <=? 2);
    reflexivity.
Qed.

(** Every headline opens with the same three characters, which no other
    line of the list does. *)
Lemma headline_head (k : nat) (p : float) :
  exists t, headline k p = String "*" (String "*" (String "S" t)).
Proof. unfold headline. eexists. reflexivity. Qed.

Lemma occurrences_In (x : string) (l : list string) :
  In x l <-> (0 < occurrences x l)%nat.
Proof.
  unfold occurrences. induction l as [|y l IH]; simpl.
  - split; [tauto | lia].
  - destruct (String.eqb_spec x y) as [->|Hne]; simpl.
    + split; [lia | auto].
    + rewrite <- IH. split; [intros [H|H]; [congruence | exact H] | auto].
Qed.

Lemma occurrences_fallback (p s g a : float) (r : Z) :
  occurrences fallback_line (get_remedial_suggestions 1 p s g a r)
  = Nat.b2n (none_triggered s g a r).
Proof.
  rewrite suggestions_shape.
  destruct (headline_head 2 p) as [t Ht].
  unfold preamble, other_blocks, none_triggered, other_triggered.
  rewrite Ht.
  destruct (s <? 45)%float, (g <? 70)%float, (a <? 85)%float, (r <=? 2);
    reflexivity.
Qed.

Lemma none_triggered_spec (s g a : float) (r : Z) :
  none_triggered s g a r = true <->
  (s <? 45)%float = false /\ (g <? 70)%float = false /\
  (a <? 85)%float = false /\ ~ r <= 2.
Proof.
  unfold none_triggered, other_triggered.
  destruct (s <? 45)%float, (g <? 70)%float, (a <? 85)%float,
    (Z.leb_spec r 2) as [Hr|Hr]; simpl; split; intros Hx;
    try discriminate; try reflexivity;
    try (destruct Hx as (H1 & H2 & H3 & H4); try discriminate; lia);
    repeat split; auto; lia.
Qed.

(** C3: for every label other than 1, and every probability and feature
    values, [get_remedial_suggestions] returns the empty list. *)
Theorem no_suggestions_unless_label_1 :
  forall (label : Z) (p s g a : float) (r : Z),
    label <> 1 -> get_remedial_suggestions label p s g a r = [].
Proof.
  intros label p s g a r Hne. unfold get_remedial_suggestions.
  destruct (Z.eqb_spec label 1) as [Heq|_]; [contradiction | reflexivity].
Qed.

Lemma no_suggestions_unless_label_1_witness :
  0 <> 1 /\ get_remedial_suggestions 0 0.25 90 95 98 5 = [].
Proof.
  split; [discriminate |].
  apply (no_suggestions_unless_label_1 0 0.25 90 95 98 5). discriminate.
Defined.

(** C4: with label 1 the list is the preamble, then the four observation
    blocks, each present exactly when its own condition holds, in the order
    score < 45, grade < 70, attendance < 85, participation <= 2, then the
    fallback line when no condition holds, then the follow-up. For score 30,
    grade 60, attendance 80 and participation 1 all four blocks are there
    in that order, between preamble and follow-up, without the fallback
    line. *)
Theorem observations_independent_in_order :
  forall (p : float),
    (forall (s g a : float) (r : Z),
        get_remedial_suggestions 1 p s g a r =
        (preamble p ++
         block (s <? 45)%float score_block ++
         block (g <? 70)%float grade_block ++
         block (a <? 85)%float attendance_block ++
         block (r <=? 2) participation_block ++
         block (none_triggered s g a r) [fallback_line] ++
         follow_up)%list) /\
    get_remedial_suggestions 1 p 30 60 80 1 =
      (preamble p ++ score_block ++ grade_block ++ attendance_block ++
       participation_block ++ follow_up)%list /\
    ~ In fallback_line (get_remedial_suggestions 1 p 30 60 80 1).
Proof.
  intros p. split; [| split].
  - intros s g a r. rewrite suggestions_shape. unfold other_blocks.
    rewrite <- !app_assoc. reflexivity.
  - rewrite suggestions_shape. reflexivity.
  - rewrite occurrences_In, occurrences_fallback. cbn. lia.
Qed.

(** C6: with label 1 the fallback line is in the list if and only if none
    of the four conditions holds, and it is never there twice. *)
Theorem fallback_iff_none_triggered :
  forall (p s g a : float) (r : Z),
    (In fallback_line (get_remedial_suggestions 1 p s g a r) <->
     (s <? 45)%float = false /\ (g <? 70)%float = false /\
     (a <? 85)%float = false /\ ~ r <= 2) /\
    (occurrences fallback_line (get_remedial_suggestions 1 p s g a r) <= 1)%nat.
Proof.
  intros p s g a r.
  rewrite occurrences_In, occurrences_fallback, <- none_triggered_spec.
  destruct (none_triggered s g a r); simpl; split; lia.
Qed.

(** C10: with label 1 the list has
    12 + 2[score < 45] + 3[grade < 70] + 2[attendance < 85]
       + 3[participation <= 2] + 1[no condition holds] lines. *)
Theorem suggestions_length :
  forall (p s g a : float) (r : Z),
    List.length (get_remedial_suggestions 1 p s g a r) =
    (12 + 2 * Nat.b2n (s <? 45)%float + 3 * Nat.b2n (g <? 70)%float
     + 2 * Nat.b2n (a <? 85)%float + 3 * Nat.b2n (r <=? 2)%Z
     + Nat.b2n (negb ((s <? 45)%float || (g <? 70)%float
                      || (a <? 85)%float || (r <=? 2)%Z)))%nat.
Proof.
  intros p s g a r. rewrite suggestions_shape.
  unfold other_blocks, none_triggered, other_triggered.
  destruct (s <? 45)%float, (g <? 70)%float, (a <? 85)%float, (r <=? 2);
    reflexivity.
Qed.

(** ** Crossing the score threshold *)

Lemma SFcompare_antisym (x y : spec_float) :
  SFcompare y x = option_map CompOpp (SFcompare x y).
Proof.
  destruct x as [sx|sx| |sx mx ex], y as [sy|sy| |sy my ey]; simpl;
    try reflexivity;
    try (destruct sx; reflexivity); try (destruct sy; reflexivity);
    try (destruct sx, sy; reflexivity).
  destruct sx, sy; try reflexivity; f_equal;
    rewrite (Z.compare_antisym ex ey);
    destruct (ex ?= ey); simpl; try reflexivity;
    change (Pos.compare_cont Eq my mx) with (Pos.compare my mx);
    change (Pos.compare_cont Eq mx my) with (Pos.compare mx my);
    rewrite (Pos.compare_antisym mx my);
    destruct (mx ?= my)%positive; reflexivity.
Qed.

(** A float that is at least [c] is not below [c]. *)
Lemma at_least_not_below (c x : float) :
  (c <=? x)%float = true -> (x <? c)%float = false.
Proof.
  rewrite FloatAxioms.leb_spec, FloatAxioms.ltb_spec.
  unfold SFleb, SFltb. rewrite (SFcompare_antisym (Prim2SF c) (Prim2SF x)).
  destruct (SFcompare (Prim2SF c) (Prim2SF x)) as [[| |]|]; simpl;
    congruence.
Qed.

Lemma occurrences_score_block (p s g a : float) (r : Z) (line : string) :
  In line score_block ->
  occurrences line (get_remedial_suggestions 1 p s g a r)
  = Nat.b2n (s <? 45)%float.
Proof.
  intros Hin. rewrite suggestions_shape.
  destruct (headline_head 2 p) as [t Ht].
  unfold preamble, other_blocks, none_triggered, other_triggered.
  rewrite Ht.
  destruct Hin as [<-|[<-|[]]];
    destruct (s <? 45)%float, (g <? 70)%float, (a <? 85)%float, (r <=? 2);
    reflexivity.
Qed.

(** C5, as the code has it: with label 1 and probability, grade, attendance
    and participation fixed, moving the score from a value >= 45 to a value
    < 45 puts the score block right after the preamble, once; the other
    triggered blocks and the follow-up stay as they are; and the fallback
    line, which is there when no other condition holds, is dropped. *)
Theorem score_crossing_adds_block_once :
  forall (p hi lo g a : float) (r : Z),
    (45 <=? hi)%float = true ->
    (lo <? 45)%float = true ->
    let before := get_remedial_suggestions 1 p hi g a r in
    let after := get_remedial_suggestions 1 p lo g a r in
    let post := (other_blocks g a r ++ follow_up)%list in
    before =
      (preamble p ++ block (negb (other_triggered g a r)) [fallback_line]
       ++ post)%list /\
    after = (preamble p ++ score_block ++ post)%list /\
    (forall line, In line score_block ->
       occurrences line before = 0%nat /\ occurrences line after = 1%nat).
Proof.
  intros p hi lo g a r Hhi Hlo before after post.
  apply at_least_not_below in Hhi.
  subst before after post. split; [| split].
  - rewrite suggestions_shape. unfold none_triggered. rewrite Hhi.
    unfold other_blocks, other_triggered, block; simpl.
    destruct (g <? 70)%float, (a <? 85)%float, (r <=? 2); reflexivity.
  - rewrite suggestions_shape. unfold none_triggered. rewrite Hlo.
    reflexivity.
  - intros line Hin. rewrite !occurrences_score_block by exact Hin.
    rewrite Hhi, Hlo. split; reflexivity.
Qed.

Lemma score_crossing_adds_block_once_witness :
  (45 <=? 50)%float = true /\ (40 <? 45)%float = true /\
  get_remedial_suggestions 1 0.75 40 60 98 5 =
    (preamble 0.75 ++ score_block ++ other_blocks 60 98 5 ++ follow_up)%list.
Proof.
  split; [reflexivity | split; [reflexivity |]].
  exact (proj1 (proj2
    (score_crossing_adds_block_once 0.75 50 40 60 98 5 eq_refl eq_refl))).
Defined.

(** C5 as stated fails where no other condition holds: lowering the score
    from 50 to 40 with grade 95, attendance 98 and participation 5 turns a
    list of 13 lines into one of 14, so the two-line block was not merely
    put in. *)
Lemma score_crossing_not_pure_insertion :
  (45 <=? 50)%float = true /\ (40 <? 45)%float = true /\
  ~ inserted_once score_block
      (get_remedial_suggestions 1 0.75 50 95 98 5)
      (get_remedial_suggestions 1 0.75 40 95 98 5).
Proof.
  split; [reflexivity | split; [reflexivity |]].
  intros (pre & post & Hb & Ha).
  apply (f_equal (@List.length string)) in Hb, Ha.
  rewrite suggestions_length in Hb, Ha.
  rewrite !List.length_app in Hb, Ha.
  cbn in Hb, Ha. lia.
Qed.

(** ** The probability in the headline *)

Lemma string_app_assoc (a b c : string) : (a ++ b) ++ c = a ++ (b ++ c).
Proof. induction a as [|x a IH]; simpl; [reflexivity | now rewrite IH]. Qed.

Lemma decimal_places_app_None (a b : string) :
  decimal_places a = None -> decimal_places (a ++ b) = decimal_places b.
Proof.
  induction a as [|x a IH]; simpl; [reflexivity |].
  destruct (is_point x); [discriminate | exact IH].
Qed.

Lemma decimal_places_uint (u : Decimal.uint) :
  decimal_places (NilEmpty.string_of_uint u) = None.
Proof. induction u; simpl; auto. Qed.

Lemma is_digit_digit_char (d : Z) :
  0 <= d < 10 -> is_digit (Fmt.digit_char d) = true.
Proof.
  intros Hd. unfold Fmt.digit_char.
  assert (Hn : (Z.to_nat d < 10)%nat) by lia.
  generalize dependent (Z.to_nat d). clear Hd. intros n Hn.
  do 10 (destruct n as [|n]; [reflexivity |]). lia.
Qed.

Lemma leading_digits_frac (k : nat) (r : Z) (t : string) :
  leading_digits t = O -> leading_digits (Fmt.frac_digits k r ++ t) = k.
Proof.
  intros Ht. induction k as [|k IH];
    cbn [Fmt.frac_digits String.append leading_digits]; [exact Ht |].
  rewrite is_digit_digit_char by (apply Z.mod_pos_bound; lia).
  now rewrite IH.
Qed.

Lemma decimal_places_fixed_point (k : nat) (n : Z) (t : string) :
  leading_digits t = O ->
  decimal_places (Fmt.fixed_point (S k) n ++ t) = Some (S k).
Proof.
  intros Ht. unfold Fmt.fixed_point, Fmt.int_digits.
  rewrite string_app_assoc.
  rewrite decimal_places_app_None by apply decimal_places_uint.
  change ("." ++ Fmt.frac_digits (S k) (n mod Fmt.pow10 (S k)))
    with (String "." (Fmt.frac_digits (S k) (n mod Fmt.pow10 (S k)))).
  cbn [String.append decimal_places]. change (is_point ".") with true.
  cbv iota. now rewrite leading_digits_frac.
Qed.

Lemma decimal_places_signed (s : bool) (t : string) :
  decimal_places (Fmt.sign_text s ++ t) = decimal_places t.
Proof. destruct s; reflexivity. Qed.

(** In a headline printed with [k + 1] digits of precision, a finite
    percentage shows exactly [k + 1] decimal places; [nan] and [inf] show
    no decimal point. *)
Lemma decimal_places_headline (k : nat) (p : float) :
  decimal_places (headline (S k) p) =
  match Prim2SF (p * 100)%float with
  | S754_nan | S754_infinity _ => None
  | S754_zero _ | S754_finite _ _ _ => Some (S k)
  end.
Proof.
  unfold headline, Fmt.format_percent.
  rewrite decimal_places_app_None by reflexivity.
  rewrite string_app_assoc.
  destruct (Prim2SF (p * 100)%float) as [s|s| |s m e];
    unfold Fmt.format_fixed.
  - rewrite string_app_assoc, decimal_places_signed.
    now apply decimal_places_fixed_point.
  - destruct s; reflexivity.
  - reflexivity.
  - rewrite string_app_assoc, decimal_places_signed.
    now apply decimal_places_fixed_point.
Qed.

(** C1, as the code has it: with label 1 the list begins with the
    support-needed headline, in which the probability is printed by the
    format [.2%]: as a percentage with exactly two decimal places when its
    hundredfold is finite in binary64 ([nan%] and [inf%] otherwise). *)
Theorem headline_first_two_decimals :
  forall (p s g a : float) (r : Z),
    hd_error (get_remedial_suggestions 1 p s g a r) =
      Some ("**Student identified as potentially needing support (Probability: "
            ++ Fmt.format_percent 2 p ++ ")**") /\
    decimal_places
      ("**Student identified as potentially needing support (Probability: "
       ++ Fmt.format_percent 2 p ++ ")**") =
    match Prim2SF (p * 100)%float with
    | S754_nan | S754_infinity _ => None
    | S754_zero _ | S754_finite _ _ _ => Some 2%nat
    end.
Proof.
  intros p s g a r. split.
  - rewrite suggestions_shape. reflexivity.
  - exact (decimal_places_headline 1 p).
Qed.

(** C1 as stated fails: for probability 0.734 the headline reads 73.40%,
    with two decimal places, and is not the one-decimal rendering 73.4%. *)
Lemma headline_not_one_decimal :
  hd_error (get_remedial_suggestions 1 p_0734 50 75 90 3) =
    Some "**Student identified as potentially needing support (Probability: 73.40%)**"
  /\ decimal_places
       "**Student identified as potentially needing support (Probability: 73.40%)**"
     = Some 2%nat
  /\ headline 1 p_0734 =
       "**Student identified as potentially needing support (Probability: 73.4%)**"
  /\ hd_error (get_remedial_suggestions 1 p_0734 50 75 90 3)
     <> Some (headline 1 p_0734).
Proof.
  split; [vm_compute; reflexivity |].
  split; [vm_compute; reflexivity |].
  split; [vm_compute; reflexivity |].
  intros H. apply (f_equal (option_map decimal_places)) in H.
  vm_compute in H. discriminate H.
Qed.

(** ** Prediction *)

(** The one-row frame handed to the scaler: the five values as entered, in
    the order of [FEATURE_NAMES]. *)
Lemma input_frame (data : Features) :
  DataFrame [data] FEATURE_NAMES =
  [[ Float (Standardized_Test_Score data); Float (Average_Grade data);
     Float (Attendance_Percentage data); Int (Times_Late data);
     Int (Participation_Rating data) ]].
Proof. reflexivity. Qed.

(** C7: when the scaler or the classifier is null, [predict_slow_learner]
    returns a null label and a null probability, and raises nothing. *)
Theorem predict_without_artifacts :
  forall (data : Features) (scaler_obj : option Scaler)
         (model_obj : option Classifier),
    scaler_obj = None \/ model_obj = None ->
    predict_slow_learner data scaler_obj model_obj = Ok (None, None).
Proof.
  intros data scaler_obj model_obj [-> | ->].
  - reflexivity.
  - destruct scaler_obj; reflexivity.
Qed.

Lemma predict_without_artifacts_witness :
  (Some Double.identity_scaler = None \/ @None Classifier = None) /\
  predict_slow_learner Double.out_of_range_student
    (Some Double.identity_scaler) None = Ok (None, None).
Proof.
  split; [right; reflexivity |].
  apply (predict_without_artifacts Double.out_of_range_student
           (Some Double.identity_scaler) None).
  right; reflexivity.
Defined.

(** C2, as the code has it: [predict_slow_learner] checks no range. For
    every feature vector, in range or not, the scaler is applied to the
    frame of the five values as entered, and when the scaler and the
    classifier answer, the call returns the classifier's first label and the
    second entry of its first probability row. *)
Theorem predict_checks_no_range :
  forall (data : Features) (scaler_obj : Scaler) (model_obj : Classifier)
         (scaled : list (list float)) (label : Z) (labels : list Z)
         (p0 p1 : float) (ps : list float) (rows : list (list float)),
    transform scaler_obj
      [[ Float (Standardized_Test_Score data); Float (Average_Grade data);
         Float (Attendance_Percentage data); Int (Times_Late data);
         Int (Participation_Rating data) ]] = Ok scaled ->
    predict model_obj scaled = Ok (label :: labels) ->
    predict_proba model_obj scaled = Ok ((p0 :: p1 :: ps) :: rows) ->
    predict_slow_learner data (Some scaler_obj) (Some model_obj)
    = Ok (Some label, Some p1).
Proof.
  intros data scaler_obj model_obj scaled label labels p0 p1 ps rows Ht Hp Hq.
  unfold predict_slow_learner. rewrite input_frame, Ht. cbn [bind].
  rewrite Hp. cbn [bind index nth_error]. rewrite Hq. reflexivity.
Qed.

Lemma predict_checks_no_range_witness :
  in_declared_range Double.out_of_range_student = false /\
  predict_slow_learner Double.out_of_range_student
    (Some Double.identity_scaler) (Some Double.threshold_classifier)
  = Ok (Some 1, Some 0.75%float).
Proof.
  split; [reflexivity |].
  apply (predict_checks_no_range Double.out_of_range_student
           Double.identity_scaler Double.threshold_classifier
           [[150; 75; 90; 2; 3]]%float 1 [] 0.25%float 0.75%float [] []);
    reflexivity.
Defined.

(** C2 as stated fails: a test score of 150 is outside 0-100, and the call
    still goes through the scaler and the classifier and returns their
    prediction; nothing is rejected. *)
Lemma out_of_range_not_rejected :
  in_declared_range Double.out_of_range_student = false /\
  predict_slow_learner Double.out_of_range_student
    (Some Double.identity_scaler) (Some Double.threshold_classifier)
  = Ok (Some 1, Some 0.75%float) /\
  ~ rejected (predict_slow_learner Double.out_of_range_student
                (Some Double.identity_scaler)
                (Some Double.threshold_classifier)).
Proof.
  split; [reflexivity | split; [reflexivity |]].
  intros [e He]. vm_compute in He. discriminate He.
Qed.

(** ** The loader *)

(** When both loads succeed the two loaded values are returned as they are
    and nothing is reported. *)
Lemma load_artifacts_success (Artifact : Type)
    (joblib_load : string -> result (option Artifact))
    (scaler_path model_path : string) (scaler model : option Artifact) :
  joblib_load scaler_path = Ok scaler ->
  joblib_load model_path = Ok model ->
  load_artifacts Artifact joblib_load scaler_path model_path
  = ((scaler, model), []).
Proof.
  intros Hs Hm. unfold load_artifacts. rewrite Hs; cbn [bind].
  rewrite Hm. reflexivity.
Qed.

Example load_artifacts_both_present :
  load_artifacts unit Double.both_present SCALER_FILENAME MODEL_FILENAME
  = ((Some tt, Some tt), []).
Proof. now apply load_artifacts_success. Qed.

(** C8, as the code has it: a load that raises makes the whole loading
    fail, and the loader returns (null, null) with one message; when both
    loads succeed the loader returns the two loaded values as they are,
    with no check and no message. *)
Theorem load_artifacts_failure_is_total :
  forall (Artifact : Type) (joblib_load : string -> result (option Artifact))
         (scaler_path model_path : string),
    (exists scaler model,
        joblib_load scaler_path = Ok scaler /\
        joblib_load model_path = Ok model /\
        load_artifacts Artifact joblib_load scaler_path model_path
        = ((scaler, model), [])) \/
    (exists e message,
        first_raised Artifact joblib_load scaler_path model_path e /\
        load_artifacts Artifact joblib_load scaler_path model_path
        = ((None, None), [message])).
Proof.
  intros Artifact joblib_load scaler_path model_path.
  unfold load_artifacts.
  destruct (joblib_load scaler_path) as [scaler|e] eqn:Hs; cbn [bind].
  - destruct (joblib_load model_path) as [model|e] eqn:Hm; cbn [bind].
    + left. exists scaler, model. repeat split.
    + right. exists e.
      destruct e; eexists; (split; [eapply model_raised; eassumption |]);
        reflexivity.
  - right. exists e.
    destruct e; eexists; (split; [apply scaler_raised; assumption |]);
      reflexivity.
Qed.

(** C8 as stated fails: with a scaler file that holds [None] and a model
    file that holds an object, both loads succeed and the loader returns a
    null scaler beside a model, and reports nothing. *)
Lemma null_scaler_beside_model :
  Double.none_in_scaler_file SCALER_FILENAME = Ok None /\
  Double.none_in_scaler_file MODEL_FILENAME = Ok (Some tt) /\
  load_artifacts unit Double.none_in_scaler_file
    SCALER_FILENAME MODEL_FILENAME
  = ((None, Some tt), []).
Proof. repeat split. Qed.

(** C9, as the code has it: the scaler is loaded first, then the model, and
    the first load that raises decides. The loader then returns (null,
    null); it reports the missing-artifact message, which names the two
    expected file names, when that exception is [FileNotFoundError], and
    the corrupt-artifact message with the text of the exception
    otherwise. *)
Theorem load_artifacts_first_failure :
  forall (Artifact : Type) (joblib_load : string -> result (option Artifact))
         (scaler_path model_path : string) (e : exn),
    first_raised Artifact joblib_load scaler_path model_path e ->
    fst (load_artifacts Artifact joblib_load scaler_path model_path)
    = (None, None) /\
    snd (load_artifacts Artifact joblib_load scaler_path model_path)
    = [ match e with
        | FileNotFoundError _ =>
            "Error: Could not find 'scaler.joblib' or 'random_forest_model.joblib'. Ensure they are in the app directory."
        | _ => "Error loading artifacts: " ++ str e
        end ].
Proof.
  intros Artifact joblib_load scaler_path model_path e H.
  unfold load_artifacts.
  destruct H as [Hs | scaler Hs Hm].
  - rewrite Hs. destruct e; split; reflexivity.
  - rewrite Hs; cbn [bind]. rewrite Hm. destruct e; split; reflexivity.
Qed.

Lemma load_artifacts_first_failure_witness :
  first_raised unit Double.corrupt_scaler_no_model
    SCALER_FILENAME MODEL_FILENAME (OtherException "invalid load key") /\
  snd (load_artifacts unit Double.corrupt_scaler_no_model
         SCALER_FILENAME MODEL_FILENAME)
  = ["Error loading artifacts: invalid load key"].
Proof.
  assert (H : first_raised unit Double.corrupt_scaler_no_model
                SCALER_FILENAME MODEL_FILENAME
                (OtherException "invalid load key"))
    by (apply scaler_raised; reflexivity).
  split; [exact H |].
  exact (proj2 (load_artifacts_first_failure unit
                  Double.corrupt_scaler_no_model
                  SCALER_FILENAME MODEL_FILENAME
                  (OtherException "invalid load key") H)).
Defined.

(** C9 as stated fails: with the model file absent and the scaler file
    unreadable, the loader reports the corrupt-artifact message, not the
    missing-artifact one. *)
Lemma absent_model_reported_as_corrupt :
  absent unit Double.corrupt_scaler_no_model MODEL_FILENAME /\
  undeserializable unit Double.corrupt_scaler_no_model SCALER_FILENAME
    (OtherException "invalid load key") /\
  load_artifacts unit Double.corrupt_scaler_no_model
    SCALER_FILENAME MODEL_FILENAME
  = ((None, None), ["Error loading artifacts: invalid load key"]) /\
  snd (load_artifacts unit Double.corrupt_scaler_no_model
         SCALER_FILENAME MODEL_FILENAME)
  <> [missing_artifact_message].
Proof.
  split; [| split; [| split]].
  - exists "No such file or directory". reflexivity.
  - split; [reflexivity | discriminate].
  - reflexivity.
  - intros H. vm_compute in H. discriminate H.
Qed.

(** * Further properties of the advisory list *)

(** X1: with label 1 the list always ends with the closing separator and
    the follow-up reminder. *)
Theorem follow_up_closes_list :
  forall (p s g a : float) (r : Z),
    exists body,
      get_remedial_suggestions 1 p s g a r =
      (body ++
       [ (nl ++ "---")%string;
         "**Follow Up:** Monitor progress and adjust strategies as needed." ])%list
      /\ List.length body =
         (List.length (get_remedial_suggestions 1 p s g a r) - 2)%nat.
Proof.
  intros p s g a r.
  exists (preamble p ++ block (s <? 45)%float score_block ++
          other_blocks g a r ++
          block (none_triggered s g a r) [fallback_line])%list.
  rewrite suggestions_shape. unfold follow_up.
  split.
  - now rewrite <- !app_assoc.
  - rewrite !List.length_app. cbn [List.length]. lia.
Qed.

(** X2: the list is empty exactly when the label is not 1 (the test the
    page uses to decide whether to show the expander), and a non-empty list
    has between 13 and 22 lines. *)
Theorem suggestions_empty_or_bounded :
  forall (label : Z) (p s g a : float) (r : Z),
    (get_remedial_suggestions label p s g a r = [] <-> label <> 1) /\
    (label = 1 <->
     (13 <= List.length (get_remedial_suggestions label p s g a r) <= 22)%nat).
Proof.
  intros label p s g a r.
  destruct (Z.eq_dec label 1) as [->|Hne].
  - pose proof (suggestions_length p s g a r) as Hlen.
    assert (Hb : (13 <= List.length (get_remedial_suggestions 1 p s g a r)
                  <= 22)%nat).
    { rewrite Hlen.
      destruct (s <? 45)%float, (g <? 70)%float, (a <? 85)%float, (r <=? 2);
        cbn; lia. }
    split; split; intros H; try tauto.
    rewrite H in Hb. cbn in Hb. lia.
  - assert (He : get_remedial_suggestions label p s g a r = []).
    { unfold get_remedial_suggestions.
      destruct (Z.eqb_spec label 1); [contradiction | reflexivity]. }
    rewrite He. split; split; intros H; try tauto; try contradiction.
    cbn in H. lia.
Qed.

(** X3: the probability shows in the first line only: two calls that
    differ in the probability alone give lists with the same tail. *)
Theorem probability_only_in_headline :
  forall (label : Z) (p p' s g a : float) (r : Z),
    tl (get_remedial_suggestions label p s g a r) =
    tl (get_remedial_suggestions label p' s g a r).
Proof.
  intros label p p' s g a r.
  destruct (Z.eq_dec label 1) as [->|Hne].
  - rewrite !suggestions_shape. reflexivity.
  - unfold get_remedial_suggestions.
    destruct (Z.eqb_spec label 1); [contradiction | reflexivity].
Qed.

Lemma occurrences_observations (p s g a : float) (r : Z) :
  let l := get_remedial_suggestions 1 p s g a r in
  occurrences "* *Observation:* Low Standardized Test Score." l
    = Nat.b2n (s <? 45)%float /\
  occurrences "* *Observation:* Low Average Grade." l
    = Nat.b2n (g <? 70)%float /\
  occurrences "* *Observation:* Low Attendance." l
    = Nat.b2n (a <? 85)%float /\
  occurrences "* *Observation:* Low Class Participation." l
    = Nat.b2n (r <=? 2).
Proof.
  cbv zeta. rewrite suggestions_shape.
  destruct (headline_head 2 p) as [t Ht].
  unfold preamble, other_blocks, none_triggered, other_triggered.
  rewrite Ht.
  destruct (s <? 45)%float, (g <? 70)%float, (a <? 85)%float, (r <=? 2);
    repeat split; reflexivity.
Qed.

(** X4: with label 1 each of the four observation lines is in the list
    exactly when its own comparison holds, and never more than once. *)
Theorem observation_iff_condition :
  forall (p s g a : float) (r : Z),
    let l := get_remedial_suggestions 1 p s g a r in
    (In "* *Observation:* Low Standardized Test Score." l
       <-> (s <? 45)%float = true) /\
    (In "* *Observation:* Low Average Grade." l <-> (g <? 70)%float = true) /\
    (In "* *Observation:* Low Attendance." l <-> (a <? 85)%float = true) /\
    (In "* *Observation:* Low Class Participation." l <-> r <= 2) /\
    (forall line,
        In line [ "* *Observation:* Low Standardized Test Score.";
                  "* *Observation:* Low Average Grade.";
                  "* *Observation:* Low Attendance.";
                  "* *Observation:* Low Class Participation." ] ->
        (occurrences line l <= 1)%nat).
Proof.
  intros p s g a r l.
  destruct (occurrences_observations p s g a r) as (H1 & H2 & H3 & H4).
  fold l in H1, H2, H3, H4.
  rewrite !occurrences_In, H1, H2, H3, H4, <- Z.leb_le.
  repeat split;
    try (destruct (s <? 45)%float; cbn; intros; (lia || congruence));
    try (destruct (g <? 70)%float; cbn; intros; (lia || congruence));
    try (destruct (a <? 85)%float; cbn; intros; (lia || congruence));
    try (destruct (r <=? 2); cbn; intros; (lia || congruence)).
  intros line [<-|[<-|[<-|[<-|[]]]]].
  - rewrite H1. destruct (s <? 45)%float; cbn; lia.
  - rewrite H2. destruct (g <? 70)%float; cbn; lia.
  - rewrite H3. destruct (a <? 85)%float; cbn; lia.
  - rewrite H4. destruct (r <=? 2); cbn; lia.
Qed.

(** ** Lower metrics never lose an observation *)

Lemma SFleb_ltb_trans (x y z : spec_float) :
  SFleb x y = true -> SFltb y z = true -> SFltb x z = true.
Proof.
  unfold SFleb, SFltb.
  destruct x as [sx|sx| |sx mx ex], y as [sy|sy| |sy my ey],
    z as [sz|sz| |sz mz ez]; simpl;
    try discriminate; try (intros; reflexivity);
    repeat match goal with
           | b : bool |- _ => destruct b
           end; simpl; try discriminate; try (intros; reflexivity).
  all: change (Pos.compare_cont Eq) with Pos.compare.
  all: destruct (Z.compare_spec ex ey), (Z.compare_spec ey ez),
         (Z.compare_spec ex ez); try lia; try discriminate;
         try (intros; reflexivity); simpl.
  all: destruct (Pos.compare_spec mx my), (Pos.compare_spec my mz),
         (Pos.compare_spec mx mz); simpl; try lia; try discriminate;
         try (intros; reflexivity).
Qed.

(** A float at most one that is below [c] is below [c] too. *)
Lemma at_most_below (x y c : float) :
  (x <=? y)%float = true -> (y <? c)%float = true -> (x <? c)%float = true.
Proof.
  rewrite FloatAxioms.leb_spec, !FloatAxioms.ltb_spec.
  apply SFleb_ltb_trans.
Qed.

(** X5: with label 1, lowering the score, the grade, the attendance or the
    participation never removes an observation: every observation line of
    the list for the higher values is in the list for the lower ones; and
    when the fallback line is in the list for the lower values, it is in the
    list for the higher ones. *)
Theorem lower_metrics_keep_observations :
  forall (p p' s s' g g' a a' : float) (r r' : Z),
    (s' <=? s)%float = true ->
    (g' <=? g)%float = true ->
    (a' <=? a)%float = true ->
    r' <= r ->
    (forall line,
        In line [ "* *Observation:* Low Standardized Test Score.";
                  "* *Observation:* Low Average Grade.";
                  "* *Observation:* Low Attendance.";
                  "* *Observation:* Low Class Participation." ] ->
        In line (get_remedial_suggestions 1 p s g a r) ->
        In line (get_remedial_suggestions 1 p' s' g' a' r')) /\
    (In fallback_line (get_remedial_suggestions 1 p' s' g' a' r') ->
     In fallback_line (get_remedial_suggestions 1 p s g a r)).
Proof.
  intros p p' s s' g g' a a' r r' Hs Hg Ha Hr.
  pose proof (at_most_below s' s 45 Hs) as Ks.
  pose proof (at_most_below g' g 70 Hg) as Kg.
  pose proof (at_most_below a' a 85 Ha) as Ka.
  destruct (occurrences_observations p s g a r) as (H1 & H2 & H3 & H4).
  destruct (occurrences_observations p' s' g' a' r') as (L1 & L2 & L3 & L4).
  split.
  - intros line [<-|[<-|[<-|[<-|[]]]]]; rewrite !occurrences_In.
    + rewrite H1, L1. destruct (s <? 45)%float; cbn; [| lia].
      rewrite Ks by reflexivity. cbn; lia.
    + rewrite H2, L2. destruct (g <? 70)%float; cbn; [| lia].
      rewrite Kg by reflexivity. cbn; lia.
    + rewrite H3, L3. destruct (a <? 85)%float; cbn; [| lia].
      rewrite Ka by reflexivity. cbn; lia.
    + rewrite H4, L4.
      destruct (Z.leb_spec r 2), (Z.leb_spec r' 2); cbn; lia.
  - rewrite !occurrences_In, !occurrences_fallback.
    destruct (none_triggered s' g' a' r') eqn:E'; cbn; [intros _ | lia].
    apply none_triggered_spec in E'. destruct E' as (E1 & E2 & E3 & E4).
    assert (E : none_triggered s g a r = true).
    { apply none_triggered_spec. repeat split.
      - destruct (s <? 45)%float; [rewrite Ks in E1 by reflexivity |]; congruence.
      - destruct (g <? 70)%float; [rewrite Kg in E2 by reflexivity |]; congruence.
      - destruct (a <? 85)%float; [rewrite Ka in E3 by reflexivity |]; congruence.
      - lia. }
    rewrite E. cbn; lia.
Qed.

Lemma lower_metrics_keep_observations_witness :
  In "* *Observation:* Low Average Grade."
     (get_remedial_suggestions 1 0.25 40 60 80 1).
Proof.
  apply (proj1 (lower_metrics_keep_observations
                  0.75 0.25 90 40 65 60 98 80 5 1
                  eq_refl eq_refl eq_refl ltac:(lia))).
  - right; left; reflexivity.
  - apply (proj2 (occurrences_In _ _)).
    destruct (occurrences_observations 0.75 90 65 98 5) as (_ & H2 & _).
    cbv zeta in H2. rewrite H2. apply Nat.lt_0_1.
Defined.

(** * Further properties of the prediction *)

Lemma index_inv {A : Type} (xs : list A) (i : nat) (e : exn) :
  index xs i = Raise e ->
  nth_error xs i = None /\ e = out_of_bounds i (List.length xs).
Proof.
  unfold index. destruct (nth_error xs i); [discriminate |].
  intros H. injection H as <-. split; reflexivity.
Qed.

(** With both artifacts in place a call that returns, returns a label and
    a probability. *)
Lemma predict_returns_both (data : Features) (sc : Scaler) (m : Classifier)
    (label : option Z) (prob : option float) :
  predict_slow_learner data (Some sc) (Some m) = Ok (label, prob) ->
  exists y q, label = Some y /\ prob = Some q.
Proof.
  unfold predict_slow_learner; cbv zeta.
  destruct (transform sc _) as [scaled|e]; cbn [bind]; [| discriminate].
  destruct (predict m scaled) as [labels|e]; cbn [bind]; [| discriminate].
  destruct (index labels 0) as [y|e]; cbn [bind]; [| discriminate].
  destruct (predict_proba m scaled) as [rows|e]; cbn [bind]; [| discriminate].
  destruct (index rows 0) as [row|e]; cbn [bind]; [| discriminate].
  destruct (index row 1) as [q|e]; cbn [bind]; [| discriminate].
  intros H. injection H as <- <-. now exists y, q.
Qed.

(** X6: whenever [predict_slow_learner] returns, the label is null exactly
    when the scaler or the classifier is null, and the probability is null
    exactly when the label is: the caller's test [prediction is not None]
    stands for both. *)
Theorem predict_null_iff_no_artifact :
  forall (data : Features) (scaler_obj : option Scaler)
         (model_obj : option Classifier)
         (label : option Z) (prob : option float),
    predict_slow_learner data scaler_obj model_obj = Ok (label, prob) ->
    (label = None <-> scaler_obj = None \/ model_obj = None) /\
    (label = None <-> prob = None).
Proof.
  intros data [sc|] [m|] label prob H.
  - destruct (predict_returns_both data sc m label prob H)
      as (y & q & -> & ->).
    split; split; intros K; try discriminate;
      destruct K; discriminate.
  - cbn in H. injection H as <- <-. split; split; auto.
  - cbn in H. injection H as <- <-. split; split; auto.
  - cbn in H. injection H as <- <-. split; split; auto.
Qed.

Lemma predict_null_iff_no_artifact_witness :
  (Some 1 = None <->
   Some Double.identity_scaler = None \/
   Some Double.threshold_classifier = None) /\
  (Some 1 = None <-> Some 0.75%float = None).
Proof.
  apply (predict_null_iff_no_artifact Double.out_of_range_student
           (Some Double.identity_scaler) (Some Double.threshold_classifier)
           (Some 1) (Some 0.75%float)).
  reflexivity.
Defined.

(** X7: with both artifacts in place, [predict_slow_learner] raises [e] in
    these cases and no other: the scaler raises [e]; the classifier's
    [predict] or [predict_proba] raises [e]; or [e] is numpy's [IndexError]
    for position 0 of an empty label array or of an empty probability
    array, or for position 1 of a first probability row with fewer than two
    entries. Nothing is caught and no other error is made up. *)
Theorem predict_failure_modes :
  forall (data : Features) (sc : Scaler) (m : Classifier) (e : exn),
    predict_slow_learner data (Some sc) (Some m) = Raise e <->
    transform sc (DataFrame [data] FEATURE_NAMES) = Raise e \/
    exists scaled,
      transform sc (DataFrame [data] FEATURE_NAMES) = Ok scaled /\
      (predict m scaled = Raise e \/
       (predict m scaled = Ok [] /\ e = out_of_bounds 0 0) \/
       exists label labels,
         predict m scaled = Ok (label :: labels) /\
         (predict_proba m scaled = Raise e \/
          (predict_proba m scaled = Ok [] /\ e = out_of_bounds 0 0) \/
          exists row rows,
            predict_proba m scaled = Ok (row :: rows) /\
            (List.length row < 2)%nat /\
            e = out_of_bounds 1 (List.length row))).
Proof.
  intros data sc m e. unfold predict_slow_learner; cbv zeta.
  destruct (transform sc _) as [scaled|e0]; cbn [bind].
  2:{ split.
      - intros H; injection H as <-; left; reflexivity.
      - intros [H | (x & H & _)];
          [injection H as <-; reflexivity | discriminate]. }
  destruct (predict m scaled) as [[|y ys]|e1] eqn:Hp;
    cbn [bind index nth_error List.length].
  - split.
    + intros H. injection H as <-. right. exists scaled.
      split; [reflexivity |]. right; left. rewrite Hp. now split.
    + intros [H | (x & H & K)]; [discriminate |].
      injection H as <-. rewrite Hp in K.
      destruct K as [K | [[_ ->] | (l & ls & K & _)]];
        [discriminate | reflexivity | discriminate].
  - destruct (predict_proba m scaled) as [rows|e2] eqn:Hq; cbn [bind].
    + destruct rows as [|[|p0 [|p1 ps]] rest];
        cbn [bind index nth_error List.length].
      * split.
        -- intros H. injection H as <-. right. exists scaled.
           split; [reflexivity |]. right; right. exists y, ys. rewrite Hp.
           split; [reflexivity |]. right; left. rewrite Hq. now split.
        -- intros [H | (x & H & K)]; [discriminate |].
           injection H as <-. rewrite Hp, Hq in K.
           destruct K as [K | [[K _] | (l & ls & _ &
                          [K | [[_ ->] | (rw & rs & K & _)]])]];
             try discriminate; reflexivity.
      * split.
        -- intros H. injection H as <-. right. exists scaled.
           split; [reflexivity |]. right; right. exists y, ys. rewrite Hp.
           split; [reflexivity |]. right; right. exists [], rest.
           rewrite Hq. cbn [List.length]. repeat split. lia.
        -- intros [H | (x & H & K)]; [discriminate |].
           injection H as <-. rewrite Hp, Hq in K.
           destruct K as [K | [[K _] | (l & ls & _ &
                          [K | [[K _] | (rw & rs & K & _ & ->)]])]];
             try discriminate. injection K as <- <-. reflexivity.
      * split.
        -- intros H. injection H as <-. right. exists scaled.
           split; [reflexivity |]. right; right. exists y, ys. rewrite Hp.
           split; [reflexivity |]. right; right. exists [p0], rest.
           rewrite Hq. cbn [List.length]. repeat split. lia.
        -- intros [H | (x & H & K)]; [discriminate |].
           injection H as <-. rewrite Hp, Hq in K.
           destruct K as [K | [[K _] | (l & ls & _ &
                          [K | [[K _] | (rw & rs & K & _ & ->)]])]];
             try discriminate. injection K as <- <-. reflexivity.
      * split; [discriminate |].
        intros [H | (x & H & K)]; [discriminate |].
        injection H as <-. rewrite Hp, Hq in K.
        destruct K as [K | [[K _] | (l & ls & _ &
                       [K | [[K _] | (rw & rs & K & L & _)]])]];
          try discriminate.
        injection K as <- <-. cbn in L. lia.
    + split.
      * intros H. injection H as <-. right. exists scaled.
        split; [reflexivity |]. right; right. exists y, ys. rewrite Hp, Hq.
        split; [reflexivity | left; reflexivity].
      * intros [H | (x & H & K)]; [discriminate |].
        injection H as <-. rewrite Hp, Hq in K.
        destruct K as [K | [[K _] | (l & ls & _ &
                       [K | [[K _] | (rw & rs & K & _)]])]];
          try discriminate. injection K as <-. reflexivity.
  - split.
    + intros H. injection H as <-. right. exists scaled.
      split; [reflexivity |]. left. exact Hp.
    + intros [H | (x & H & K)]; [discriminate |].
      injection H as <-. rewrite Hp in K.
      destruct K as [K | [[K _] | (l & ls & K & _)]]; try discriminate.
      injection K as <-. reflexivity.
Qed.

(** A classifier fitted on a single class makes the call fail on the
    missing second probability column. *)
Example predict_one_class :
  predict_slow_learner Double.out_of_range_student
    (Some Double.identity_scaler) (Some one_class_classifier)
  = Raise (IndexError "index 1 is out of bounds for axis 0 with size 1").
Proof. reflexivity. Qed.

(** * Further properties of the loader *)

(** X8: the loader returns a scaler and a model that are both objects
    exactly when both loads succeed with these objects; it reports nothing
    exactly when both loads succeed, and never more than one message. *)
Theorem load_artifacts_success_iff :
  forall (Artifact : Type) (joblib_load : string -> result (option Artifact))
         (scaler_path model_path : string),
    (forall scaler model,
        fst (load_artifacts Artifact joblib_load scaler_path model_path)
        = (Some scaler, Some model) <->
        joblib_load scaler_path = Ok (Some scaler) /\
        joblib_load model_path = Ok (Some model)) /\
    (snd (load_artifacts Artifact joblib_load scaler_path model_path) = [] <->
     exists scaler model,
       joblib_load scaler_path = Ok scaler /\
       joblib_load model_path = Ok model) /\
    (List.length
       (snd (load_artifacts Artifact joblib_load scaler_path model_path))
     <= 1)%nat.
Proof.
  intros Artifact joblib_load scaler_path model_path.
  unfold load_artifacts.
  destruct (joblib_load scaler_path) as [s|e]; cbn [bind].
  - destruct (joblib_load model_path) as [m|e]; cbn [bind].
    + split; [| split; [| cbn; lia]].
      * intros scaler model; cbn. split.
        -- intros H. injection H as -> ->. now split.
        -- intros [H1 H2]. injection H1 as ->. injection H2 as ->.
           reflexivity.
      * cbn. split; [intros _; now exists s, m | reflexivity].
    + split; [| split; [| destruct e; cbn; lia]].
      * intros scaler model. split.
        -- destruct e; cbn; discriminate.
        -- intros [_ H]; discriminate.
      * split.
        -- destruct e; cbn; discriminate.
        -- intros (x & y & _ & H); discriminate.
  - split; [| split; [| destruct e; cbn; lia]].
    + intros scaler model. split.
      * destruct e; cbn; discriminate.
      * intros [H _]; discriminate.
    + split.
      * destruct e; cbn; discriminate.
      * intros (x & y & H & _); discriminate.
Qed.

(** X9: once loading the scaler has raised, the model is not looked at: the
    outcome is the same whatever the model path is and whatever loading it
    would give. *)
Theorem load_artifacts_stops_at_scaler :
  forall (Artifact : Type) (load load' : string -> result (option Artifact))
         (scaler_path model_path model_path' : string) (e : exn),
    load scaler_path = Raise e ->
    load' scaler_path = Raise e ->
    load_artifacts Artifact load scaler_path model_path =
    load_artifacts Artifact load' scaler_path model_path'.
Proof.
  intros Artifact load load' scaler_path model_path model_path' e H H'.
  unfold load_artifacts. rewrite H, H'. reflexivity.
Qed.

Lemma load_artifacts_stops_at_scaler_witness :
  load_artifacts unit Double.corrupt_scaler_no_model
    SCALER_FILENAME MODEL_FILENAME =
  load_artifacts unit
    (fun path => if (path =? SCALER_FILENAME)%string
                 then Raise (OtherException "invalid load key")
                 else Ok (Some tt))
    SCALER_FILENAME "elsewhere.joblib".
Proof.
  apply (load_artifacts_stops_at_scaler unit
           Double.corrupt_scaler_no_model _
           SCALER_FILENAME MODEL_FILENAME "elsewhere.joblib"
           (OtherException "invalid load key")); reflexivity.
Defined.

(** * The results area *)

Lemma decimal_places_percent (k : nat) (p : float) :
  decimal_places (Fmt.format_percent (S k) p) =
  match Prim2SF (p * 100)%float with
  | S754_nan | S754_infinity _ => None
  | S754_zero _ | S754_finite _ _ _ => Some (S k)
  end.
Proof.
  unfold Fmt.format_percent.
  destruct (Prim2SF (p * 100)%float) as [s|s| |s m e];
    unfold Fmt.format_fixed.
  - rewrite string_app_assoc, decimal_places_signed.
    now apply decimal_places_fixed_point.
  - destruct s; reflexivity.
  - reflexivity.
  - rewrite string_app_assoc, decimal_places_signed.
    now apply decimal_places_fixed_point.
Qed.

Lemma suggestions_for_label_1 (p s g a : float) (r : Z) :
  exists rest,
    get_remedial_suggestions 1 p s g a r = headline 2 p :: rest.
Proof. rewrite suggestions_shape. eexists. reflexivity. Qed.

Lemma suggestions_for_other_label (label : Z) (p s g a : float) (r : Z) :
  (label =? 1) = false -> get_remedial_suggestions label p s g a r = [].
Proof. intros H. unfold get_remedial_suggestions. now rewrite H. Qed.

(** X10: unless both artifacts are loaded and the button was pressed, no
    prediction is attempted: the page is the header, one fixed notice (the
    artifacts warning, which takes precedence, or the invitation to fill the
    form) and the footer, whatever the form holds, and nothing is raised. *)
Theorem no_prediction_without_artifacts_and_button :
  forall (scaler : option Scaler) (final_model : option Classifier)
         (predict_button : bool)
         (score grade attendance : float) (late participation : Z),
    (is_None scaler || is_None final_model || negb predict_button)%bool
    = true ->
    prediction_results scaler final_model predict_button
      score grade attendance late participation =
    ([ header "Prediction Results";
       if (is_None scaler || is_None final_model)%bool
       then warning
              "Model artifacts not loaded. Please check file paths and logs."
       else info
              "Enter student details in the sidebar and click 'Predict Support Need' to view results.";
       markdown "---";
       caption "**Disclaimer:** This tool provides suggestions based on a predictive model. Always use professional judgment and consider individual student circumstances." ],
     None).
Proof.
  intros scaler final_model predict_button score grade attendance late
    participation H.
  unfold prediction_results.
  destruct (is_None scaler || is_None final_model)%bool; [reflexivity |].
  destruct predict_button; [discriminate | reflexivity].
Qed.

Lemma no_prediction_without_artifacts_and_button_witness :
  fst (prediction_results None (Some one_class_classifier) true
         150 75 90 2 3) =
  [ header "Prediction Results";
    warning "Model artifacts not loaded. Please check file paths and logs.";
    markdown "---";
    caption "**Disclaimer:** This tool provides suggestions based on a predictive model. Always use professional judgment and consider individual student circumstances." ].
Proof.
  exact (f_equal fst
           (no_prediction_without_artifacts_and_button
              None (Some one_class_classifier) true 150 75 90 2 3 eq_refl)).
Defined.

(** X11: the message "Prediction could not be made. Check artifact
    loading." is never shown: the branch that renders it is reached only
    with both artifacts loaded, and then a call that returns gives a
    label. *)
Theorem could_not_predict_never_shown :
  forall (scaler : option Scaler) (final_model : option Classifier)
         (predict_button : bool)
         (score grade attendance : float) (late participation : Z),
    ~ In (error "Prediction could not be made. Check artifact loading.")
         (fst (prediction_results scaler final_model predict_button
                 score grade attendance late participation)).
Proof.
  intros scaler final_model predict_button score grade attendance late
    participation.
  unfold prediction_results.
  destruct scaler as [sc|], final_model as [m|]; cbn [is_None orb];
    try (cbn; intuition discriminate).
  destruct predict_button; [| cbn; intuition discriminate].
  destruct (predict_slow_learner _ (Some sc) (Some m))
    as [[label prob]|e] eqn:Hp; [| cbn; intuition discriminate].
  destruct (predict_returns_both _ sc m label prob Hp) as (y & q & -> & ->).
  destruct (get_remedial_suggestions y q score grade attendance participation);
    destruct (y =? 1); cbn [fst]; rewrite ?in_app_iff; cbn [In footer];
    intuition discriminate.
Qed.

(** X12: when the prediction returns label [y] and probability [q], the
    page shows the status (the warning for label 1, the success notice
    otherwise), the probability as a metric in the format [.1%], the
    expander with the advisory list exactly when the label is 1, and the
    footer; nothing is raised. *)
Theorem page_of_prediction :
  forall (sc : Scaler) (m : Classifier)
         (score grade attendance : float) (late participation y : Z)
         (q : float),
    predict_slow_learner
      {| Standardized_Test_Score := score;
         Average_Grade := grade;
         Attendance_Percentage := attendance;
         Times_Late := late;
         Participation_Rating := participation |}
      (Some sc) (Some m) = Ok (Some y, Some q) ->
    prediction_results (Some sc) (Some m) true
      score grade attendance late participation =
    (([ header "Prediction Results";
        if y =? 1
        then warning "🚨 **Potential Need for Support Identified**"
        else success "✅ **No Specific Support Need Identified by Model**";
        metric "Model Confidence (Probability of Needing Support)"
               (Fmt.format_percent 1 q) ] ++
      (if y =? 1
       then [ expander "💡 Recommended Remedial Suggestions" true
                (get_remedial_suggestions 1 q
                   score grade attendance participation) ]
       else []) ++
      [ markdown "---";
        caption "**Disclaimer:** This tool provides suggestions based on a predictive model. Always use professional judgment and consider individual student circumstances." ])%list,
     None).
Proof.
  intros sc m score grade attendance late participation y q Hp.
  unfold prediction_results. cbn [is_None orb]. rewrite Hp.
  destruct (y =? 1) eqn:Hy.
  - apply Z.eqb_eq in Hy. subst y.
    destruct (suggestions_for_label_1 q score grade attendance participation)
      as [rest ->]. reflexivity.
  - rewrite (suggestions_for_other_label y q _ _ _ _ Hy). reflexivity.
Qed.

Lemma page_of_prediction_witness :
  snd (prediction_results (Some Double.identity_scaler)
         (Some Double.threshold_classifier) true 150 75 90 2 3) = None.
Proof.
  exact (f_equal snd
           (page_of_prediction Double.identity_scaler
              Double.threshold_classifier 150 75 90 2 3 1 0.75%float
              eq_refl)).
Defined.

(** X13: on the page of a label-1 prediction the same finite probability
    is printed twice with different precision: with one decimal place in
    the metric and with two in the first line of the expander. *)
Theorem metric_and_headline_precision :
  forall (sc : Scaler) (m : Classifier)
         (score grade attendance : float) (late participation : Z)
         (q : float),
    predict_slow_learner
      {| Standardized_Test_Score := score;
         Average_Grade := grade;
         Attendance_Percentage := attendance;
         Times_Late := late;
         Participation_Rating := participation |}
      (Some sc) (Some m) = Ok (Some 1, Some q) ->
    exists (shown first_line : string) (rest : list string),
      In (metric "Model Confidence (Probability of Needing Support)" shown)
         (fst (prediction_results (Some sc) (Some m) true
                 score grade attendance late participation)) /\
      In (expander "💡 Recommended Remedial Suggestions" true
            (first_line :: rest))
         (fst (prediction_results (Some sc) (Some m) true
                 score grade attendance late participation)) /\
      decimal_places shown =
        match Prim2SF (q * 100)%float with
        | S754_nan | S754_infinity _ => None
        | S754_zero _ | S754_finite _ _ _ => Some 1%nat
        end /\
      decimal_places first_line =
        match Prim2SF (q * 100)%float with
        | S754_nan | S754_infinity _ => None
        | S754_zero _ | S754_finite _ _ _ => Some 2%nat
        end.
Proof.
  intros sc m score grade attendance late participation q Hp.
  destruct (suggestions_for_label_1 q score grade attendance participation)
    as [rest Hrest].
  exists (Fmt.format_percent 1 q), (headline 2 q), rest.
  unfold prediction_results. cbn [is_None orb]. rewrite Hp.
  change (1 =? 1) with true. cbv iota. rewrite Hrest. cbv zeta iota.
  cbn [fst]. rewrite !in_app_iff. cbn [In].
  split; [auto 12 |]. split; [auto 12 |]. split.
  - exact (decimal_places_percent 0 q).
  - exact (decimal_places_headline 1 q).
Qed.

Lemma metric_and_headline_precision_witness :
  exists (shown first_line : string) (rest : list string),
    In (metric "Model Confidence (Probability of Needing Support)" shown)
       (fst (prediction_results (Some Double.identity_scaler)
               (Some Double.threshold_classifier) true 150 75 90 2 3)) /\
    In (expander "💡 Recommended Remedial Suggestions" true
          (first_line :: rest))
       (fst (prediction_results (Some Double.identity_scaler)
               (Some Double.threshold_classifier) true 150 75 90 2 3)) /\
    decimal_places shown = Some 1%nat /\
    decimal_places first_line = Some 2%nat.
Proof.
  exact (metric_and_headline_precision Double.identity_scaler
           Double.threshold_classifier 150 75 90 2 3 0.75%float eq_refl).
Defined.

(** X14: an exception ends the page right after the header, and it is
    always the exception of [predict_slow_learner] on the form values with
    the button pressed; when nothing is raised the page runs from the
    header to the footer. *)
Theorem exception_ends_page_after_header :
  forall (scaler : option Scaler) (final_model : option Classifier)
         (predict_button : bool)
         (score grade attendance : float) (late participation : Z),
    match snd (prediction_results scaler final_model predict_button
                 score grade attendance late participation) with
    | Some e =>
        fst (prediction_results scaler final_model predict_button
               score grade attendance late participation)
        = [header "Prediction Results"] /\
        predict_button = true /\
        predict_slow_learner
          {| Standardized_Test_Score := score;
             Average_Grade := grade;
             Attendance_Percentage := attendance;
             Times_Late := late;
             Participation_Rating := participation |}
          scaler final_model = Raise e
    | None =>
        exists body,
          fst (prediction_results scaler final_model predict_button
                 score grade attendance late participation)
          = (header "Prediction Results" :: body ++ footer)%list
    end.
Proof.
  intros scaler final_model predict_button score grade attendance late
    participation.
  unfold prediction_results.
  destruct scaler as [sc|], final_model as [m|]; cbn [is_None orb];
    try (cbn [snd fst]; eexists [_]; reflexivity).
  destruct predict_button; [| cbn [snd fst]; eexists [_]; reflexivity].
  destruct (predict_slow_learner _ (Some sc) (Some m))
    as [[label prob]|e] eqn:Hp; [| cbn [snd fst]; now repeat split].
  destruct (predict_returns_both _ sc m label prob Hp) as (y & q & -> & ->).
  destruct (get_remedial_suggestions y q score grade attendance participation);
    destruct (y =? 1); cbn [snd fst];
    (eexists [_; _] + eexists [_; _; _]); reflexivity.
Qed.
